(** * Ragger backends: the APDU exchange layer of [LedgerWalletBackend]

    A shallow embedding of [src/ragger/backend/interface.py]
    ([RaisePolicy], [BackendInterface]) and of
    [src/ragger/backend/ledgerwallet.py] ([raise_policy_enforcer],
    [LedgerWalletBackend]).

    Python methods that touch [self] or the USB channel become
    computations of a state-and-exception monad [M]; the state carries the
    backend object, the ordered trace of the calls made on the
    [ledgerwallet] library, and the records handed to the loggers.  The
    [ledgerwallet] library itself is an environment ([Channel]) that
    answers each call from the history of the calls made so far. *)

From Stdlib Require Import String ZArith QArith List Bool Lia.
Import ListNotations.
Open Scope Z_scope.

(** ** Python values *)

(** A [bytes] object: a sequence of integers, each in [range(256)]. *)
Definition bytes := list Z.

Definition is_byte (b : Z) : Prop := 0 <= b <= 255.

(** [raw[-2:]]: the whole sequence when it is shorter than two. *)
Definition last_two (raw : bytes) : bytes :=
  skipn (length raw - 2)%nat raw.

(** [raw[:-2]]: empty when the sequence is shorter than two. *)
Definition but_last_two (raw : bytes) : bytes :=
  firstn (length raw - 2)%nat raw.

(** [int.from_bytes(bs, "big")]. *)
Definition int_from_bytes_big (bs : bytes) : Z :=
  fold_left (fun acc b => acc * 256 + b) bs 0.

(** [x or d] on byte strings: an empty [x] is falsy. *)
Definition py_or (x d : bytes) : bytes :=
  match x with
  | [] => d
  | _ :: _ => x
  end.

(** [ragger.utils.RAPDU]: a status word and the response data.  The class
    is declared outside the two source files; the code only builds it from
    a status and a payload and reads [.status] and [.data]. *)
Record RAPDU := mkRAPDU { status : Z; data : bytes }.

(** [ragger.firmware.Firmware]: an opaque descriptor, never inspected. *)
Inductive Firmware := FirmwareDescriptor (name : string).

(** [ragger.utils.Crop]: the four margins of a screen crop. *)
Record Crop := mkCrop { upper : Z; lower : Z; left : Z; right : Z }.

(** [pathlib.Path] and Python's [float], as far as the code uses them:
    they are received and passed over. *)
Definition Path := string.
Definition float := Q.

(** [class RaisePolicy(Enum)] *)
Inductive RaisePolicy :=
| RAISE_NOTHING
| RAISE_ALL_BUT_0x9000
| RAISE_ALL.

Definition RaisePolicy_eqb (a b : RaisePolicy) : bool :=
  match a, b with
  | RAISE_NOTHING, RAISE_NOTHING => true
  | RAISE_ALL_BUT_0x9000, RAISE_ALL_BUT_0x9000 => true
  | RAISE_ALL, RAISE_ALL => true
  | _, _ => false
  end.

(** ** Exceptions

    [ExceptionRAPDU] is [ragger.error.ExceptionRAPDU] (the spec's
    [DeviceRejected]); [CommException] is the [ledgerwallet] fault that
    carries a status word and data; [AssertionError] comes from the
    [assert self._client is not None] lines; [FrameTooLarge] is the
    encoder's rejection; [TransportError] stands for every other
    [Exception] the channel may raise; [AttributeError] is what reading
    an attribute the object does not have raises. *)
Inductive exn :=
| ExceptionRAPDU (status : Z) (data : bytes)
| CommException (sw : Z) (data : bytes)
| AssertionError
| FrameTooLarge
| TransportError (errno : Z)
| AttributeError (attribute : string).

(** ** The backend object and its surroundings *)

(** A [logging.Logger], identified by its name. *)
Record Logger := mkLogger { logger_name : string }.

Inductive log_message :=
| MsgInfo (text : string)
| MsgApduOut (sent : bytes)                    (* "=> %s" *)
| MsgApduIn (received : bytes) (sw : Z).       (* "<= %s%4x" *)

Record log_record := mkLogRecord { via : Logger; message : log_message }.

(** A [ledgerwallet.client.LedgerClient]; the code only asks whether its
    [device] is a [HidDevice]. *)
Record LedgerClient := mkLedgerClient { device_is_hid : bool }.

(** The attributes of a [LedgerWalletBackend] instance.  [logger] is read
    by [__enter__] and [handle_usb_reset] but assigned by neither
    [__init__]: the attribute is absent ([None]) until someone outside the
    two source files assigns it. *)
Record Backend := mkBackend {
  _firmware : Firmware;
  _last_async_response : option RAPDU;
  raise_policy : RaisePolicy;
  apdu_logger : Logger;
  logger : option Logger;
  _client : option LedgerClient
}.

(** The calls made on the outside world, in order. *)
Inductive event :=
| EvLedgerClient                    (* LedgerClient() *)
| EvSleep (seconds : Z)             (* sleep(n) *)
| EvWrite (sent : bytes)            (* client.device.write(data) *)
| EvRead (timeout : option Z)       (* client.device.read(...) *)
| EvRawExchange (sent : bytes)      (* client.raw_exchange(data) *)
| EvClose.                          (* client.close() *)

Record State := mkState {
  self : Backend;
  trace : list event;
  log : list log_record
}.

(** The [ledgerwallet] library and the device behind it: each call is
    answered from the calls made before it. *)
Record Channel := mkChannel {
  new_client : list event -> exn + LedgerClient;
  device_write : list event -> bytes -> option exn;
  device_read : list event -> exn + bytes;
  raw_exchange : list event -> bytes -> exn + bytes;
  client_close : list event -> option exn
}.

(** ** The monad *)

Inductive outcome (A : Type) :=
| Return (a : A)
| Raise (e : exn).
Arguments Return {A} a.
Arguments Raise {A} e.

Definition M (A : Type) : Type := State -> outcome A * State.

Definition ret {A} (a : A) : M A := fun st => (Return a, st).

Definition raise {A} (e : exn) : M A := fun st => (Raise e, st).

Definition bind {A B} (m : M A) (k : A -> M B) : M B :=
  fun st =>
    match m st with
    | (Return a, st') => k a st'
    | (Raise e, st') => (Raise e, st')
    end.

(** [try: m  except <the e with handler e = Some h>: h]; an exception the
    handler does not select keeps propagating. *)
Definition try_except {A} (m : M A) (handler : exn -> option (M A)) : M A :=
  fun st =>
    match m st with
    | (Return a, st') => (Return a, st')
    | (Raise e, st') =>
        match handler e with
        | Some h => h st'
        | None => (Raise e, st')
        end
    end.

Definition lift {A} (o : outcome A) : M A := fun st => (o, st).

Declare Scope py_scope.
Delimit Scope py_scope with py.
Notation "x <- m ;; k" := (bind m (fun x => k))
  (at level 61, m at next level, right associativity) : py_scope.
Notation "m ;; k" := (bind m (fun _ => k))
  (at level 61, right associativity) : py_scope.
Open Scope py_scope.

Definition get_self : M Backend := fun st => (Return (self st), st).

Definition put_self (b : Backend) : M unit :=
  fun st => (Return tt, mkState b (trace st) (log st)).

Definition record (ev : event) (st : State) : State :=
  mkState (self st) (trace st ++ [ev]) (log st).

Definition emit (lg : Logger) (msg : log_message) : M unit :=
  fun st => (Return tt, mkState (self st) (trace st) (log st ++ [mkLogRecord lg msg])).

(** Attribute assignments. *)
Definition set__client (c : option LedgerClient) (b : Backend) : Backend :=
  mkBackend (_firmware b) (_last_async_response b) (raise_policy b)
            (apdu_logger b) (logger b) c.

Definition set__last_async_response (r : option RAPDU) (b : Backend) : Backend :=
  mkBackend (_firmware b) r (raise_policy b)
            (apdu_logger b) (logger b) (_client b).

Definition set_raise_policy (p : RaisePolicy) (b : Backend) : Backend :=
  mkBackend (_firmware b) (_last_async_response b) p
            (apdu_logger b) (logger b) (_client b).

(** ** Frame codec *)

(** Modelled from the spec: [ragger.utils.pack_APDU] is imported by
    [interface.py] but defined outside the source files.  Per the spec's
    codec, it "produces class_id || instruction_id || param1 || param2 || len(payload) || payload"
    and "fails with FrameTooLarge if len(payload) > 255". *)
Definition pack_APDU (cla ins p1 p2 : Z) (payload : bytes) : outcome bytes :=
  if (255 <? Z.of_nat (length payload))
  then Raise FrameTooLarge
  else Return ([cla; ins; p1; p2; Z.of_nat (length payload)] ++ payload).

(** The decoding both [receive] and [exchange_raw] perform:
    [RAPDU(int.from_bytes(raw_result[-2:], "big"), raw_result[:-2] or b"")]. *)
Definition decode (raw_result : bytes) : RAPDU :=
  mkRAPDU (int_from_bytes_big (last_two raw_result))
          (py_or (but_last_two raw_result) []).

(** ** [BackendInterface] and [LedgerWalletBackend] *)

(** [BackendInterface.is_raise_required] *)
Definition is_raise_required (self : Backend) (rapdu : RAPDU) : bool :=
  RaisePolicy_eqb (raise_policy self) RAISE_ALL
  || (RaisePolicy_eqb (raise_policy self) RAISE_ALL_BUT_0x9000
      && negb (status rapdu =? 0x9000)).

(** The same method as the step of a computation: it reads [self] and
    hands back a boolean. *)
Definition is_raise_required_call (rapdu : RAPDU) : M bool :=
  me <- get_self ;; ret (is_raise_required me rapdu).

(** [assert self._client is not None], handing over the client. *)
Definition assert_client : M LedgerClient :=
  me <- get_self ;;
  match _client me with
  | Some c => ret c
  | None => raise AssertionError
  end.

(** [self.logger.info(text)]: the attribute is looked up first. *)
Definition logger_info (text : string) : M unit :=
  me <- get_self ;;
  match logger me with
  | Some lg => emit lg (MsgInfo text)
  | None => raise (AttributeError "logger")
  end.

Definition apdu_logger_debug (msg : log_message) : M unit :=
  me <- get_self ;; emit (apdu_logger me) msg.

(** [sleep(seconds)] *)
Definition sleep (seconds : Z) : M unit :=
  fun st => (Return tt, record (EvSleep seconds) st).

Section Backend.

Variable ch : Channel.

(** [LedgerClient()] *)
Definition LedgerClient_new : M LedgerClient :=
  fun st =>
    match new_client ch (trace st) with
    | inr c => (Return c, record EvLedgerClient st)
    | inl e => (Raise e, record EvLedgerClient st)
    end.

(** [client.close()] *)
Definition LedgerClient_close (c : LedgerClient) : M unit :=
  fun st =>
    match client_close ch (trace st) with
    | None => (Return tt, record EvClose st)
    | Some e => (Raise e, record EvClose st)
    end.

(** [client.device.write(data)] *)
Definition Device_write (c : LedgerClient) (data : bytes) : M unit :=
  fun st =>
    match device_write ch (trace st) data with
    | None => (Return tt, record (EvWrite data) st)
    | Some e => (Raise e, record (EvWrite data) st)
    end.

(** [client.device.read(...)] *)
Definition Device_read (c : LedgerClient) (timeout : option Z) : M bytes :=
  fun st =>
    match device_read ch (trace st) with
    | inr raw => (Return raw, record (EvRead timeout) st)
    | inl e => (Raise e, record (EvRead timeout) st)
    end.

(** [client.raw_exchange(data)] *)
Definition LedgerClient_raw_exchange (c : LedgerClient) (data : bytes) : M bytes :=
  fun st =>
    match raw_exchange ch (trace st) data with
    | inr raw => (Return raw, record (EvRawExchange data) st)
    | inl e => (Raise e, record (EvRawExchange data) st)
    end.

(** [raise_policy_enforcer(function)]: the [decoration] closure, with the
    wrapped call already applied to its arguments. *)
Definition raise_policy_enforcer (function : M RAPDU) : M RAPDU :=
  rapdu <- try_except function
             (fun error =>
                match error with
                | CommException sw data => Some (ret (mkRAPDU sw data))
                | _ => None
                end) ;;
  apdu_logger_debug (MsgApduIn (data rapdu) (status rapdu)) ;;
  required <- is_raise_required_call rapdu ;;
  if required
  then raise (ExceptionRAPDU (status rapdu) (data rapdu))
  else ret rapdu.

(** [LedgerWalletBackend.__enter__] *)
Definition __enter__ : M unit :=
  logger_info "Starting LedgerWalletBackend stream" ;;
  try_except
    (c <- LedgerClient_new ;;
     me <- get_self ;; put_self (set__client (Some c) me))
    (fun _ =>
       Some (sleep 1 ;;
             c <- LedgerClient_new ;;
             me <- get_self ;; put_self (set__client (Some c) me))) ;;
  ret tt.

(** [LedgerWalletBackend.__exit__] *)
Definition __exit__ : M unit :=
  c <- assert_client ;;
  LedgerClient_close c.

(** [LedgerWalletBackend.handle_usb_reset] *)
Definition handle_usb_reset : M unit :=
  logger_info "Re-starting LedgerWalletBackend stream" ;;
  __exit__ ;;
  __enter__.

(** [LedgerWalletBackend.send_raw] *)
Definition send_raw (data : bytes) : M unit :=
  apdu_logger_debug (MsgApduOut data) ;;
  c <- assert_client ;;
  Device_write c data.

(** The body of [LedgerWalletBackend.receive], before decoration. *)
Definition receive_undecorated : M RAPDU :=
  c <- assert_client ;;
  raw_result <- (if device_is_hid c
                 then Device_read c (Some 1000)
                 else Device_read c None) ;;
  ret (decode raw_result).

(** [LedgerWalletBackend.receive] *)
Definition receive : M RAPDU :=
  raise_policy_enforcer receive_undecorated.

(** The body of [LedgerWalletBackend.exchange_raw], before decoration. *)
Definition exchange_raw_undecorated (data : bytes) : M RAPDU :=
  apdu_logger_debug (MsgApduOut data) ;;
  c <- assert_client ;;
  raw_result <- LedgerClient_raw_exchange c data ;;
  ret (decode raw_result).

(** [LedgerWalletBackend.exchange_raw] *)
Definition exchange_raw (data : bytes) : M RAPDU :=
  raise_policy_enforcer (exchange_raw_undecorated data).

(** [LedgerWalletBackend.exchange_async_raw], a [@contextmanager]: the
    generator runs up to its [yield], the caller's [with] block [body]
    runs, and on normal exit the generator is resumed.  An exception
    leaving [body] is thrown into the generator at the [yield], where
    nothing catches it, so the statements after the [yield] are not
    run. *)
Definition exchange_async_raw (data : bytes) (body : M unit) : M unit :=
  send_raw data ;;
  body ;;
  rapdu <- receive ;;
  me <- get_self ;; put_self (set__last_async_response (Some rapdu) me).

(** [BackendInterface.send] *)
Definition send (cla ins p1 p2 : Z) (data : bytes) : M unit :=
  apdu <- lift (pack_APDU cla ins p1 p2 data) ;;
  send_raw apdu.

(** [BackendInterface.exchange] *)
Definition exchange (cla ins p1 p2 : Z) (data : bytes) : M RAPDU :=
  apdu <- lift (pack_APDU cla ins p1 p2 data) ;;
  exchange_raw apdu.


(** The click, touch and screen operations of [LedgerWalletBackend]. *)
Definition right_click : M unit := ret tt.
Definition left_click : M unit := ret tt.
Definition both_click : M unit := ret tt.
Definition finger_touch (x y : Z) (delay : float) : M unit := ret tt.
Definition wait_for_screen_change (timeout : float) : M unit := ret tt.

Definition compare_screen_with_snapshot
           (golden_snap_path : Path) (crop : option Crop)
           (tmp_snap_path : option Path) (golden_run : bool) : M bool :=
  ret true.

Definition compare_screen_with_text (text : string) : M bool := ret true.

(** [get_current_screen_content] returns the empty list [[]]. *)
Definition get_current_screen_content : M (list string) := ret [].

End Backend.

(** ** Fixtures of the specification *)

(** [sw.to_bytes(2, "big")] for a 16-bit status word. *)
Definition status_to_bytes (sw : Z) : bytes := [sw / 256; sw mod 256].

(** The echoing transport of the specification: it answers a command
    frame with the frame's payload (what follows the five header bytes)
    followed by the status word. *)
Definition transport_echo (sw : Z) (apdu : bytes) : bytes :=
  skipn 5 apdu ++ status_to_bytes sw.

(** What the decorator adds to the state: one "<=" record. *)
Definition logged_in (r : RAPDU) (st : State) : State :=
  mkState (self st) (trace st)
          (log st ++ [mkLogRecord (apdu_logger (self st))
                                  (MsgApduIn (data r) (status r))]).

(** What [send_raw] and [exchange_raw] log first: one "=>" record. *)
Definition logged_out (sent : bytes) (st : State) : State :=
  mkState (self st) (trace st)
          (log st ++ [mkLogRecord (apdu_logger (self st)) (MsgApduOut sent)]).

(** The raise policy applied to a response. *)
Definition enforce (b : Backend) (r : RAPDU) : outcome RAPDU :=
  if is_raise_required b r
  then Raise (ExceptionRAPDU (status r) (data r))
  else Return r.

(** The argument [device.read] gets in [receive]: 1000 on a [HidDevice]. *)
Definition read_timeout (c : LedgerClient) : option Z :=
  if device_is_hid c then Some 1000 else None.

(** [BackendInterface.__init__] followed by [LedgerWalletBackend.__init__],
    as far as the attributes go: [_firmware], [_last_async_response],
    [raise_policy], [apdu_logger] and [_client] are assigned, [logger] is
    not.  The handlers installed on the APDU logger are the matter of
    [__init___handlers]. *)
Definition __init__ (firmware : Firmware) : Backend :=
  mkBackend firmware None RAISE_ALL_BUT_0x9000
            (mkLogger "apdu_logger") None None.

(** ** Concrete backends and channels *)

Definition hid_client : LedgerClient := mkLedgerClient true.

Definition fresh_backend : Backend :=
  __init__ (FirmwareDescriptor "nanos").

(** [backend.logger = lg], an assignment made from outside the class. *)
Definition set_logger (lg : Logger) (b : Backend) : Backend :=
  mkBackend (_firmware b) (_last_async_response b) (raise_policy b)
            (apdu_logger b) (Some lg) (_client b).

(** A backend whose [with] block has been entered, under a given policy. *)
Definition open_backend (p : RaisePolicy) : Backend :=
  set_raise_policy p (set__client (Some hid_client) fresh_backend).

(** The same backends once a logger has been assigned to them. *)
Definition ragger_logger : Logger := mkLogger "ragger".

Definition fresh_backend_with_logger : Backend :=
  set_logger ragger_logger fresh_backend.

Definition open_backend_with_logger (p : RaisePolicy) : Backend :=
  set_logger ragger_logger (open_backend p).

Definition start (b : Backend) : State := mkState b [] [].

(** A channel that always accepts, and answers every command with
    [response]. *)
Definition fixed_channel (response : exn + bytes) : Channel :=
  mkChannel (fun _ => inr hid_client)
            (fun _ _ => None)
            (fun _ => response)
            (fun _ _ => response)
            (fun _ => None).

(** The echoing channel. *)
Definition echo_channel (sw : Z) : Channel :=
  mkChannel (fun _ => inr hid_client)
            (fun _ _ => None)
            (fun _ => inr (status_to_bytes sw))
            (fun _ apdu => inr (transport_echo sw apdu))
            (fun _ => None).

(** A channel whose first [LedgerClient()] fails and whose later ones
    succeed: the device is still enumerating. *)
Definition flaky_channel : Channel :=
  mkChannel (fun h => match h with
                      | [] => inl (TransportError 19)
                      | _ :: _ => inr hid_client
                      end)
            (fun _ _ => None)
            (fun _ => inr (status_to_bytes 0x9000))
            (fun _ apdu => inr (transport_echo 0x9000 apdu))
            (fun _ => None).

(** A channel on which [LedgerClient()] fails every time, with an error
    that tells the attempts apart. *)
Definition dead_channel : Channel :=
  mkChannel (fun h => inl (TransportError (Z.of_nat (length h))))
            (fun _ _ => None)
            (fun _ => inl (TransportError 5))
            (fun _ _ => inl (TransportError 5))
            (fun _ => None).

(** The state in which [exchange_async_raw] stores the response. *)
Definition stored (rapdu : RAPDU) (st : State) : State :=
  mkState (set__last_async_response (Some rapdu) (self st))
          (trace st) (log st).

(** What [logger.info] adds to the state when the logger is [lg]. *)
Definition informed (lg : Logger) (text : string) (st : State) : State :=
  mkState (self st) (trace st)
          (log st ++ [mkLogRecord lg (MsgInfo text)]).

(** ** Further definitions *)

(** [isinstance(error, CommException)], the test of the decorator's
    [except] clause. *)
Definition is_CommException (e : exn) : bool :=
  match e with
  | CommException _ _ => true
  | _ => false
  end.

(** [backend.raise_policy = p], the caller's way to change the policy
    between two calls. *)
Definition assign_raise_policy (p : RaisePolicy) : M unit :=
  me <- get_self ;; put_self (set_raise_policy p me).

(** A channel whose client refuses to close. *)
Definition stuck_channel : Channel :=
  mkChannel (fun _ => inr hid_client)
            (fun _ _ => None)
            (fun _ => inr (status_to_bytes 0x9000))
            (fun _ apdu => inr (transport_echo 0x9000 apdu))
            (fun _ => Some (TransportError 32)).

(** *** The handlers of the APDU logger

    [logging.getLogger("apdu_logger")] hands every backend the same
    logger object, so the handlers [BackendInterface.__init__] adds, and
    the [_cleanup] callbacks it registers with [atexit], belong to the
    process and not to one backend. *)
Inductive Handler :=
| StreamHandler
| FileHandler (filename : Path) (closes : nat).   (* close() calls made by _cleanup *)

Record Process := mkProcess {
  handlers : list Handler;        (* apdu_logger.handlers *)
  registered : nat                (* _cleanup callbacks given to atexit *)
}.

(** The logging part of [BackendInterface.__init__]:
    [addHandler(StreamHandler())], and with a [log_apdu_file] also
    [addHandler(FileHandler(...))] and [atexit.register(self._cleanup)]. *)
Definition __init___handlers (log_apdu_file : option Path) (p : Process) : Process :=
  let with_stream := handlers p ++ [StreamHandler] in
  match log_apdu_file with
  | None => mkProcess with_stream (registered p)
  | Some filename =>
      mkProcess (with_stream ++ [FileHandler filename 0]) (S (registered p))
  end.

(** [BackendInterface._cleanup]: [close()] on every [FileHandler] of the
    logger. *)
Definition _cleanup (hs : list Handler) : list Handler :=
  map (fun handler =>
         match handler with
         | FileHandler filename closes => FileHandler filename (S closes)
         | StreamHandler => StreamHandler
         end) hs.

(** The [_cleanup] callbacks the backends registered, run one after the
    other as [atexit] does.  This is the part of the interpreter's exit
    that the class itself sets up; what the [logging] module does of its
    own at shutdown comes on top and is not part of it. *)
Definition run_cleanups (p : Process) : list Handler :=
  Nat.iter (registered p) _cleanup (handlers p).

(** Backends constructed one after the other in a process. *)
Definition construct_all (files : list (option Path)) (p : Process) : Process :=
  fold_left (fun q file => __init___handlers file q) files p.

Definition is_FileHandler (h : Handler) : bool :=
  match h with
  | FileHandler _ _ => true
  | StreamHandler => false
  end.

Definition is_StreamHandler (h : Handler) : bool := negb (is_FileHandler h).

(** The number of backends constructed with a log file. *)
Definition with_file (files : list (option Path)) : nat :=
  length (filter (fun f => match f with Some _ => true | None => false end) files).

(** A handler that, if it is a [FileHandler], has received [n] calls of
    [close()] from [_cleanup]. *)
Definition closed_times (n : nat) (h : Handler) : Prop :=
  match h with
  | FileHandler _ closes => closes = n
  | StreamHandler => True
  end.

(** The process as the interpreter starts: no handler, nothing registered. *)
Definition fresh_process : Process := mkProcess [] 0.

(** * Properties *)

(** ** Python slices and the decoder *)

Lemma last_two_app (p : bytes) (hi lo : Z) :
  last_two (p ++ [hi; lo]) = [hi; lo].
Proof.
  unfold last_two. rewrite length_app. simpl length.
  replace (length p + 2 - 2)%nat with (length p + 0)%nat by lia.
  rewrite skipn_app, Nat.add_0_r, skipn_all.
  replace (length p - length p)%nat with 0%nat by lia.
  reflexivity.
Qed.

Lemma but_last_two_app (p : bytes) (hi lo : Z) :
  but_last_two (p ++ [hi; lo]) = p.
Proof.
  unfold but_last_two. rewrite length_app. simpl length.
  replace (length p + 2 - 2)%nat with (length p) by lia.
  rewrite firstn_app, firstn_all.
  replace (length p - length p)%nat with 0%nat by lia.
  simpl. apply app_nil_r.
Qed.

Lemma py_or_nil (x : bytes) : py_or x [] = x.
Proof. destruct x; reflexivity. Qed.

Lemma decode_app (p : bytes) (hi lo : Z) :
  decode (p ++ [hi; lo]) = mkRAPDU (hi * 256 + lo) p.
Proof.
  unfold decode.
  rewrite last_two_app, but_last_two_app, py_or_nil.
  reflexivity.
Qed.

Lemma decode_status_to_bytes (p : bytes) (sw : Z) :
  decode (p ++ status_to_bytes sw) = mkRAPDU sw p.
Proof.
  unfold status_to_bytes. rewrite decode_app. f_equal.
  rewrite (Z.div_mod sw 256) at 3 by lia. lia.
Qed.

Lemma decode_short (raw : bytes) :
  (length raw < 2)%nat ->
  decode raw = mkRAPDU (match raw with [] => 0 | b :: _ => b end) [].
Proof.
  destruct raw as [|b [|b' raw]]; simpl; intros H; try lia; reflexivity.
Qed.

(** ** Running computations *)

Lemma bind_Return {A B} (m : M A) (k : A -> M B) st a st' :
  m st = (Return a, st') -> bind m k st = k a st'.
Proof. intros H. unfold bind. rewrite H. reflexivity. Qed.

Lemma bind_Raise {A B} (m : M A) (k : A -> M B) st e st' :
  m st = (Raise e, st') -> bind m k st = (Raise e, st').
Proof. intros H. unfold bind. rewrite H. reflexivity. Qed.

Lemma assert_client_Some st c :
  _client (self st) = Some c -> assert_client st = (Return c, st).
Proof.
  intros H. unfold assert_client, bind, get_self, ret. rewrite H. reflexivity.
Qed.

Lemma assert_client_None st :
  _client (self st) = None -> assert_client st = (Raise AssertionError, st).
Proof.
  intros H. unfold assert_client, bind, get_self, raise. rewrite H. reflexivity.
Qed.

Section Running.

Variable ch : Channel.

(** The decorator on a call that returns. *)
Lemma enforcer_Return (function : M RAPDU) st r st1 :
  function st = (Return r, st1) ->
  raise_policy_enforcer function st = (enforce (self st1) r, logged_in r st1).
Proof.
  intros H.
  unfold raise_policy_enforcer, try_except, bind at 1. rewrite H.
  unfold enforce, apdu_logger_debug, is_raise_required_call, bind,
    get_self, emit, ret, raise, logged_in. simpl.
  destruct (is_raise_required (self st1) r); reflexivity.
Qed.

(** The decorator on a call that raises [CommException]. *)
Lemma enforcer_CommException (function : M RAPDU) st sw d st1 :
  function st = (Raise (CommException sw d), st1) ->
  raise_policy_enforcer function st
  = (enforce (self st1) (mkRAPDU sw d), logged_in (mkRAPDU sw d) st1).
Proof.
  intros H.
  unfold raise_policy_enforcer, try_except, bind at 1. rewrite H.
  unfold enforce, apdu_logger_debug, is_raise_required_call, bind,
    get_self, emit, ret, raise, logged_in. simpl.
  destruct (is_raise_required (self st1) (mkRAPDU sw d)); reflexivity.
Qed.

(** The decorator lets every other exception through. *)
Lemma enforcer_Raise (function : M RAPDU) st e st1 :
  function st = (Raise e, st1) ->
  (forall sw d, e <> CommException sw d) ->
  raise_policy_enforcer function st = (Raise e, st1).
Proof.
  intros H He.
  unfold raise_policy_enforcer, try_except, bind at 1. rewrite H.
  destruct e; try reflexivity.
  exfalso. eapply He. reflexivity.
Qed.

Lemma enforce_not_CommException b r sw d :
  enforce b r <> Raise (CommException sw d).
Proof. unfold enforce. destruct (is_raise_required b r); discriminate. Qed.

(** Whatever the wrapped call does, no [CommException] leaves the
    decorator. *)
Lemma enforcer_never_CommException (function : M RAPDU) st sw d :
  fst (raise_policy_enforcer function st) <> Raise (CommException sw d).
Proof.
  destruct (function st) as [[r | e] st1] eqn:H.
  - rewrite (enforcer_Return _ _ _ _ H). apply enforce_not_CommException.
  - destruct e as [s p | sw' d' | | | n | a].
    2:{ rewrite (enforcer_CommException _ _ _ _ _ H).
        apply enforce_not_CommException. }
    all: rewrite (enforcer_Raise _ _ _ _ H) by discriminate;
         simpl; discriminate.
Qed.

Lemma exchange_raw_undecorated_ok st c apdu raw :
  _client (self st) = Some c ->
  raw_exchange ch (trace st) apdu = inr raw ->
  exchange_raw_undecorated ch apdu st
  = (Return (decode raw), record (EvRawExchange apdu) (logged_out apdu st)).
Proof.
  intros Hc Hx. unfold exchange_raw_undecorated.
  unfold apdu_logger_debug at 1, bind at 1 2, get_self at 1, emit. simpl.
  fold (logged_out apdu st).
  erewrite bind_Return by (apply assert_client_Some; exact Hc).
  unfold bind, LedgerClient_raw_exchange, ret. simpl. rewrite Hx.
  reflexivity.
Qed.

Lemma exchange_raw_undecorated_fault st c apdu e :
  _client (self st) = Some c ->
  raw_exchange ch (trace st) apdu = inl e ->
  exchange_raw_undecorated ch apdu st
  = (Raise e, record (EvRawExchange apdu) (logged_out apdu st)).
Proof.
  intros Hc Hx. unfold exchange_raw_undecorated.
  unfold apdu_logger_debug at 1, bind at 1 2, get_self at 1, emit. simpl.
  fold (logged_out apdu st).
  erewrite bind_Return by (apply assert_client_Some; exact Hc).
  unfold bind, LedgerClient_raw_exchange, ret. simpl. rewrite Hx.
  reflexivity.
Qed.

Lemma receive_undecorated_ok st c raw :
  _client (self st) = Some c ->
  device_read ch (trace st) = inr raw ->
  receive_undecorated ch st
  = (Return (decode raw), record (EvRead (read_timeout c)) st).
Proof.
  intros Hc Hr. unfold receive_undecorated.
  erewrite bind_Return by (apply assert_client_Some; exact Hc).
  unfold read_timeout, bind, Device_read, ret.
  destruct (device_is_hid c); rewrite Hr; reflexivity.
Qed.

Lemma receive_undecorated_fault st c e :
  _client (self st) = Some c ->
  device_read ch (trace st) = inl e ->
  receive_undecorated ch st
  = (Raise e, record (EvRead (read_timeout c)) st).
Proof.
  intros Hc Hr. unfold receive_undecorated.
  erewrite bind_Return by (apply assert_client_Some; exact Hc).
  unfold read_timeout, bind, Device_read, ret.
  destruct (device_is_hid c); rewrite Hr; reflexivity.
Qed.

Lemma send_raw_ok st c apdu :
  _client (self st) = Some c ->
  device_write ch (trace st) apdu = None ->
  send_raw ch apdu st
  = (Return tt, record (EvWrite apdu) (logged_out apdu st)).
Proof.
  intros Hc Hw. unfold send_raw.
  unfold apdu_logger_debug at 1, bind at 1 2, get_self at 1, emit. simpl.
  fold (logged_out apdu st).
  erewrite bind_Return by (apply assert_client_Some; exact Hc).
  unfold Device_write. simpl. rewrite Hw. reflexivity.
Qed.

End Running.

(** ** Frame codec and exchange *)

Lemma pack_APDU_ok cla ins p1 p2 (payload : bytes) :
  (length payload <= 255)%nat ->
  pack_APDU cla ins p1 p2 payload
  = Return ([cla; ins; p1; p2; Z.of_nat (length payload)] ++ payload).
Proof.
  intros H. unfold pack_APDU.
  destruct (Z.ltb_spec 255 (Z.of_nat (length payload))); [lia | reflexivity].
Qed.

Lemma pack_APDU_too_large cla ins p1 p2 (payload : bytes) :
  (255 < length payload)%nat ->
  pack_APDU cla ins p1 p2 payload = Raise FrameTooLarge.
Proof.
  intros H. unfold pack_APDU.
  destruct (Z.ltb_spec 255 (Z.of_nat (length payload))); [reflexivity | lia].
Qed.

(** Once the frame is packed, the formatted operations are the raw ones. *)
Lemma exchange_packed ch cla ins p1 p2 payload apdu st :
  pack_APDU cla ins p1 p2 payload = Return apdu ->
  exchange ch cla ins p1 p2 payload st = exchange_raw ch apdu st.
Proof. intros H. unfold exchange, lift, bind. rewrite H. reflexivity. Qed.



Lemma enforce_RAISE_NOTHING b r :
  raise_policy b = RAISE_NOTHING -> enforce b r = Return r.
Proof.
  intros H. unfold enforce, is_raise_required. rewrite H. reflexivity.
Qed.

(** C1 (exchange composition).  With header bytes in [0,255], a payload of
    at most 255 bytes, the policy [RAISE_NOTHING] and a transport that
    answers a frame with its payload followed by the two big-endian bytes
    of a status word, [exchange] returns exactly the response that decoding
    the echoed bytes yields, and that response is the status word with the
    payload; the only call made on the transport is the exchange of the
    encoded frame. *)
Theorem exchange_echo_roundtrip
        (ch : Channel) (st : State) (c : LedgerClient)
        (cla ins p1 p2 : Z) (payload : bytes) (sw : Z) :
  is_byte cla -> is_byte ins -> is_byte p1 -> is_byte p2 ->
  (length payload <= 255)%nat ->
  0 <= sw <= 0xFFFF ->
  raise_policy (self st) = RAISE_NOTHING ->
  _client (self st) = Some c ->
  (forall apdu, raw_exchange ch (trace st) apdu = inr (transport_echo sw apdu)) ->
  exists apdu,
    pack_APDU cla ins p1 p2 payload = Return apdu /\
    fst (exchange ch cla ins p1 p2 payload st)
    = Return (decode (transport_echo sw apdu)) /\
    decode (transport_echo sw apdu) = mkRAPDU sw payload /\
    trace (snd (exchange ch cla ins p1 p2 payload st))
    = trace st ++ [EvRawExchange apdu].
Proof.
  intros _ _ _ _ Hlen _ Hpol Hc Hecho.
  exists ([cla; ins; p1; p2; Z.of_nat (length payload)] ++ payload).
  pose proof (pack_APDU_ok cla ins p1 p2 payload Hlen) as Hpack.
  split; [exact Hpack|].
  rewrite (exchange_packed ch _ _ _ _ _ _ st Hpack).
  unfold exchange_raw.
  rewrite (enforcer_Return _ _ _ _
             (exchange_raw_undecorated_ok ch st c _ _ Hc (Hecho _))).
  rewrite enforce_RAISE_NOTHING by exact Hpol.
  repeat split.
  unfold transport_echo. simpl skipn. apply decode_status_to_bytes.
Qed.

Lemma exchange_echo_roundtrip_witness :
  exists apdu,
    pack_APDU 0xE0 1 0 0 [1; 2] = Return apdu /\
    fst (exchange (echo_channel 0x9000) 0xE0 1 0 0 [1; 2]
                  (start (open_backend RAISE_NOTHING)))
    = Return (decode (transport_echo 0x9000 apdu)) /\
    decode (transport_echo 0x9000 apdu) = mkRAPDU 0x9000 [1; 2] /\
    trace (snd (exchange (echo_channel 0x9000) 0xE0 1 0 0 [1; 2]
                         (start (open_backend RAISE_NOTHING))))
    = trace (start (open_backend RAISE_NOTHING)) ++ [EvRawExchange apdu].
Proof.
  apply (exchange_echo_roundtrip (echo_channel 0x9000)
           (start (open_backend RAISE_NOTHING)) hid_client
           0xE0 1 0 0 [1; 2] 0x9000);
    unfold is_byte; simpl; try lia; reflexivity.
Defined.

(** ** Raise policy *)

(** C2 (raise policy laws).  [is_raise_required] is false under
    [RAISE_NOTHING], true exactly for a status word other than 0x9000
    under [RAISE_ALL_BUT_0x9000], and true under [RAISE_ALL]; evaluating
    it as a step of a computation returns that boolean and leaves the
    state as it was. *)
Theorem is_raise_required_laws (b : Backend) (rapdu : RAPDU) :
  match raise_policy b with
  | RAISE_NOTHING => is_raise_required b rapdu = false
  | RAISE_ALL_BUT_0x9000 =>
      is_raise_required b rapdu = true <-> status rapdu <> 0x9000
  | RAISE_ALL => is_raise_required b rapdu = true
  end
  /\ forall st : State,
      is_raise_required_call rapdu st
      = (Return (is_raise_required (self st) rapdu), st).
Proof.
  split; [|reflexivity].
  unfold is_raise_required.
  destruct (raise_policy b); simpl; try reflexivity.
  destruct (Z.eqb_spec (status rapdu) 0x9000) as [E | E]; simpl;
    split; intros H; congruence.
Qed.

(** ** The decorator on [receive], [exchange_raw] and [exchange] *)

Lemma receive_ok ch st c raw :
  _client (self st) = Some c ->
  device_read ch (trace st) = inr raw ->
  receive ch st
  = (enforce (self st) (decode raw),
     logged_in (decode raw) (record (EvRead (read_timeout c)) st)).
Proof.
  intros Hc Hr. unfold receive.
  rewrite (enforcer_Return _ _ _ _ (receive_undecorated_ok ch st c raw Hc Hr)).
  reflexivity.
Qed.

Lemma exchange_raw_ok ch st c apdu raw :
  _client (self st) = Some c ->
  raw_exchange ch (trace st) apdu = inr raw ->
  exchange_raw ch apdu st
  = (enforce (self st) (decode raw),
     logged_in (decode raw) (record (EvRawExchange apdu) (logged_out apdu st))).
Proof.
  intros Hc Hx. unfold exchange_raw.
  rewrite (enforcer_Return _ _ _ _
             (exchange_raw_undecorated_ok ch st c apdu raw Hc Hx)).
  reflexivity.
Qed.

Lemma receive_CommException ch st c sw d :
  _client (self st) = Some c ->
  device_read ch (trace st) = inl (CommException sw d) ->
  receive ch st
  = (enforce (self st) (mkRAPDU sw d),
     logged_in (mkRAPDU sw d) (record (EvRead (read_timeout c)) st)).
Proof.
  intros Hc Hr. unfold receive.
  rewrite (enforcer_CommException _ _ _ _ _
             (receive_undecorated_fault ch st c _ Hc Hr)).
  reflexivity.
Qed.

Lemma exchange_raw_CommException ch st c apdu sw d :
  _client (self st) = Some c ->
  raw_exchange ch (trace st) apdu = inl (CommException sw d) ->
  exchange_raw ch apdu st
  = (enforce (self st) (mkRAPDU sw d),
     logged_in (mkRAPDU sw d)
               (record (EvRawExchange apdu) (logged_out apdu st))).
Proof.
  intros Hc Hx. unfold exchange_raw.
  rewrite (enforcer_CommException _ _ _ _ _
             (exchange_raw_undecorated_fault ch st c apdu _ Hc Hx)).
  reflexivity.
Qed.

(** C3 (policy-driven raising).  When the device answers [raw], each of
    [receive], [exchange_raw] and [exchange] raises [ExceptionRAPDU] with
    exactly the decoded status word and payload if [is_raise_required]
    holds of the decoded response under the active policy, and otherwise
    returns the decoded response. *)
Theorem raise_policy_decides
        (ch : Channel) (st : State) (c : LedgerClient) (raw apdu : bytes)
        (cla ins p1 p2 : Z) (payload : bytes) :
  _client (self st) = Some c ->
  device_read ch (trace st) = inr raw ->
  raw_exchange ch (trace st) apdu = inr raw ->
  pack_APDU cla ins p1 p2 payload = Return apdu ->
  let rapdu := decode raw in
  let verdict :=
    if is_raise_required (self st) rapdu
    then Raise (ExceptionRAPDU (status rapdu) (data rapdu))
    else Return rapdu in
  fst (receive ch st) = verdict /\
  fst (exchange_raw ch apdu st) = verdict /\
  fst (exchange ch cla ins p1 p2 payload st) = verdict.
Proof.
  intros Hc Hr Hx Hpack rapdu verdict.
  rewrite (exchange_packed ch _ _ _ _ _ _ st Hpack).
  rewrite (receive_ok ch st c raw Hc Hr).
  rewrite (exchange_raw_ok ch st c apdu raw Hc Hx).
  repeat split.
Qed.

Lemma raise_policy_decides_witness :
  fst (receive (fixed_channel (inr [0x6F; 0x00]))
               (start (open_backend RAISE_ALL_BUT_0x9000)))
  = Raise (ExceptionRAPDU 0x6F00 []) /\
  fst (exchange_raw (fixed_channel (inr [0x6F; 0x00])) [0xE0; 1; 0; 0; 0]
                    (start (open_backend RAISE_ALL_BUT_0x9000)))
  = Raise (ExceptionRAPDU 0x6F00 []) /\
  fst (exchange (fixed_channel (inr [0x6F; 0x00])) 0xE0 1 0 0 []
                (start (open_backend RAISE_ALL_BUT_0x9000)))
  = Raise (ExceptionRAPDU 0x6F00 []).
Proof.
  apply (raise_policy_decides (fixed_channel (inr [0x6F; 0x00]))
           (start (open_backend RAISE_ALL_BUT_0x9000)) hid_client
           [0x6F; 0x00] [0xE0; 1; 0; 0; 0] 0xE0 1 0 0 []);
    reflexivity.
Defined.

(** C4 (channel faults become responses).  A [CommException] carrying a
    status word and data, raised by the device read or by the raw
    exchange, is turned into the response made of that status word and
    data, and that response is then raised or returned by the raise policy
    alone; from no state does [receive] or [exchange_raw] let a
    [CommException] out. *)
Theorem comm_fault_becomes_response
        (ch : Channel) (st : State) (c : LedgerClient)
        (sw : Z) (d apdu : bytes) :
  _client (self st) = Some c ->
  device_read ch (trace st) = inl (CommException sw d) ->
  raw_exchange ch (trace st) apdu = inl (CommException sw d) ->
  let verdict :=
    if is_raise_required (self st) (mkRAPDU sw d)
    then Raise (ExceptionRAPDU sw d)
    else Return (mkRAPDU sw d) in
  fst (receive ch st) = verdict /\
  fst (exchange_raw ch apdu st) = verdict /\
  (forall st' sw' d', fst (receive ch st') <> Raise (CommException sw' d')) /\
  (forall st' apdu' sw' d',
      fst (exchange_raw ch apdu' st') <> Raise (CommException sw' d')).
Proof.
  intros Hc Hr Hx verdict.
  rewrite (receive_CommException ch st c sw d Hc Hr).
  rewrite (exchange_raw_CommException ch st c apdu sw d Hc Hx).
  repeat split.
  - intros st' sw' d'. apply enforcer_never_CommException.
  - intros st' apdu' sw' d'. apply enforcer_never_CommException.
Qed.

Lemma comm_fault_becomes_response_witness :
  fst (receive (fixed_channel (inl (CommException 0x6985 [7])))
               (start (open_backend RAISE_NOTHING)))
  = Return (mkRAPDU 0x6985 [7]) /\
  fst (exchange_raw (fixed_channel (inl (CommException 0x6985 [7]))) []
                    (start (open_backend RAISE_NOTHING)))
  = Return (mkRAPDU 0x6985 [7]) /\
  (forall st' sw' d',
      fst (receive (fixed_channel (inl (CommException 0x6985 [7]))) st')
      <> Raise (CommException sw' d')) /\
  (forall st' apdu' sw' d',
      fst (exchange_raw (fixed_channel (inl (CommException 0x6985 [7])))
                        apdu' st')
      <> Raise (CommException sw' d')).
Proof.
  apply (comm_fault_becomes_response
           (fixed_channel (inl (CommException 0x6985 [7])))
           (start (open_backend RAISE_NOTHING)) hid_client 0x6985 [7] []);
    reflexivity.
Defined.

(** ** Short responses *)

(** C5, as stated, fails: a device answer of no byte at all is decoded and
    returned as the response with status word 0 and empty payload;
    nothing is raised. *)
Lemma short_response_is_returned :
  (length (@nil Z) < 2)%nat /\
  device_read (fixed_channel (inr [])) [] = inr [] /\
  receive (fixed_channel (inr [])) (start (open_backend RAISE_NOTHING))
  = (Return (mkRAPDU 0 []),
     logged_in (mkRAPDU 0 [])
               (record (EvRead (Some 1000))
                       (start (open_backend RAISE_NOTHING)))) /\
  fst (exchange_raw (fixed_channel (inr [])) [0xE0; 1; 0; 0; 0]
                    (start (open_backend RAISE_NOTHING)))
  = Return (mkRAPDU 0 []).
Proof. repeat split. simpl. lia. Qed.

(** C5, amended.  A device answer of fewer than two bytes is decoded
    without failing: the status word is the big-endian value of the bytes
    present (0 for no byte, the byte itself for one) and the payload is
    empty; [receive] and [exchange_raw] then raise or return that response
    as the raise policy says. *)
Theorem short_response_decodes
        (ch : Channel) (st : State) (c : LedgerClient) (raw apdu : bytes) :
  (length raw < 2)%nat ->
  _client (self st) = Some c ->
  device_read ch (trace st) = inr raw ->
  raw_exchange ch (trace st) apdu = inr raw ->
  let rapdu := mkRAPDU (match raw with [] => 0 | b :: _ => b end) [] in
  let verdict :=
    if is_raise_required (self st) rapdu
    then Raise (ExceptionRAPDU (status rapdu) [])
    else Return rapdu in
  decode raw = rapdu /\
  fst (receive ch st) = verdict /\
  fst (exchange_raw ch apdu st) = verdict.
Proof.
  intros Hlen Hc Hr Hx rapdu verdict.
  rewrite (receive_ok ch st c raw Hc Hr).
  rewrite (exchange_raw_ok ch st c apdu raw Hc Hx).
  rewrite (decode_short raw Hlen).
  repeat split.
Qed.

Lemma short_response_decodes_witness :
  decode [0x90] = mkRAPDU 0x90 [] /\
  fst (receive (fixed_channel (inr [0x90]))
               (start (open_backend RAISE_ALL_BUT_0x9000)))
  = Raise (ExceptionRAPDU 0x90 []) /\
  fst (exchange_raw (fixed_channel (inr [0x90])) []
                    (start (open_backend RAISE_ALL_BUT_0x9000)))
  = Raise (ExceptionRAPDU 0x90 []).
Proof.
  apply (short_response_decodes (fixed_channel (inr [0x90]))
           (start (open_backend RAISE_ALL_BUT_0x9000)) hid_client [0x90] []);
    simpl; try lia; reflexivity.
Defined.

(** ** Asynchronous exchange *)


Lemma exchange_async_raw_run ch apdu body st sent :
  send_raw ch apdu st = (Return tt, sent) ->
  exchange_async_raw ch apdu body st
  = match body sent with
    | (Raise e, st2) => (Raise e, st2)
    | (Return _, st2) =>
        match receive ch st2 with
        | (Return rapdu, st3) => (Return tt, stored rapdu st3)
        | (Raise e, st3) => (Raise e, st3)
        end
    end.
Proof.
  intros Hs. unfold exchange_async_raw.
  rewrite (bind_Return _ _ _ _ _ Hs).
  unfold bind at 1.
  destruct (body sent) as [[[] | e] st2]; [|reflexivity].
  unfold bind at 1.
  destruct (receive ch st2) as [[rapdu | e] st3]; reflexivity.
Qed.




(** ** Opening, closing and resetting the transport *)

Lemma __enter___run ch st :
  __enter__ ch st
  = match logger (self st) with
    | None => (Raise (AttributeError "logger"), st)
    | Some lg =>
        let st0 := informed lg "Starting LedgerWalletBackend stream" st in
        match new_client ch (trace st0) with
        | inr c =>
            (Return tt,
             mkState (set__client (Some c) (self st0))
                     (trace st0 ++ [EvLedgerClient]) (log st0))
        | inl _ =>
            match new_client ch (trace st0 ++ [EvLedgerClient; EvSleep 1]) with
            | inr c =>
                (Return tt,
                 mkState (set__client (Some c) (self st0))
                         (trace st0
                          ++ [EvLedgerClient; EvSleep 1; EvLedgerClient])
                         (log st0))
            | inl e2 =>
                (Raise e2,
                 mkState (self st0)
                         (trace st0
                          ++ [EvLedgerClient; EvSleep 1; EvLedgerClient])
                         (log st0))
            end
        end
    end.
Proof.
  unfold __enter__, logger_info, bind, try_except, get_self, put_self,
    emit, sleep, LedgerClient_new, record, informed, ret, raise. simpl.
  destruct (logger (self st)) as [lg|]; [|reflexivity]. simpl.
  destruct (new_client ch (trace st)) as [e1 | c]; [|reflexivity].
  simpl. rewrite <- !app_assoc. simpl.
  destruct (new_client ch (trace st ++ [EvLedgerClient; EvSleep 1]))
    as [e2 | c]; reflexivity.
Qed.

Lemma set__client_same b : set__client (_client b) b = b.
Proof. destruct b; reflexivity. Qed.

(** [__enter__] assigns [_client] and nothing else. *)
Lemma __enter___self ch st :
  self (snd (__enter__ ch st))
  = set__client (_client (self (snd (__enter__ ch st)))) (self st).
Proof.
  rewrite __enter___run.
  destruct (logger (self st)) as [lg|];
    [|simpl; symmetry; apply set__client_same].
  simpl.
  destruct (self st) as [fw lar pol al lgr cl] eqn:Hb.
  destruct (new_client ch (trace st)) as [e1 | c]; [|reflexivity].
  destruct (new_client ch (trace st ++ [EvLedgerClient; EvSleep 1]))
    as [e2 | c]; reflexivity.
Qed.

(** [__exit__] assigns no attribute. *)
Lemma __exit___self ch st : self (snd (__exit__ ch st)) = self st.
Proof.
  unfold __exit__, assert_client, bind, get_self, ret, raise,
    LedgerClient_close.
  destruct (_client (self st)); [|reflexivity].
  destruct (client_close ch (trace st)); reflexivity.
Qed.

Lemma handle_usb_reset_run ch st :
  handle_usb_reset ch st
  = match logger (self st) with
    | None => (Raise (AttributeError "logger"), st)
    | Some lg =>
        match __exit__ ch
                (informed lg "Re-starting LedgerWalletBackend stream" st) with
        | (Return _, st1) => __enter__ ch st1
        | (Raise e, st1) => (Raise e, st1)
        end
    end.
Proof.
  unfold handle_usb_reset, logger_info.
  unfold bind at 1 2, get_self at 1. simpl.
  destruct (logger (self st)) as [lg|]; reflexivity.
Qed.

(** [handle_usb_reset] assigns [_client] and nothing else. *)
Lemma handle_usb_reset_self ch st :
  self (snd (handle_usb_reset ch st))
  = set__client (_client (self (snd (handle_usb_reset ch st)))) (self st).
Proof.
  rewrite handle_usb_reset_run.
  destruct (logger (self st)) as [lg|];
    [|simpl; symmetry; apply set__client_same].
  pose proof (__exit___self ch
                (informed lg "Re-starting LedgerWalletBackend stream" st))
    as Hx.
  destruct (__exit__ ch
              (informed lg "Re-starting LedgerWalletBackend stream" st))
    as [[[] | e] st1]; simpl in Hx.
  - rewrite (__enter___self ch st1) at 1. rewrite Hx. reflexivity.
  - simpl. rewrite Hx. symmetry. apply set__client_same.
Qed.

(** Once a logger has been assigned to the backend, the retry of
    [__enter__] works as its comment says: when the first
    [LedgerClient()] fails, the backend sleeps one second and calls
    [LedgerClient()] once more, and no further.  If the second call
    succeeds the backend is open on the client it returned; if it fails
    too, its exception is the one [__enter__] raises. *)
Lemma open_retries_once (ch : Channel) (st : State) (lg : Logger) (e1 : exn) :
  logger (self st) = Some lg ->
  new_client ch (trace st) = inl e1 ->
  let run := __enter__ ch st in
  trace (snd run)
  = trace st ++ [EvLedgerClient; EvSleep 1; EvLedgerClient] /\
  match new_client ch (trace st ++ [EvLedgerClient; EvSleep 1]) with
  | inr c => fst run = Return tt /\ _client (self (snd run)) = Some c
  | inl e2 =>
      fst run = Raise e2 /\ _client (self (snd run)) = _client (self st)
  end.
Proof.
  intros Hlg H1 run. unfold run. rewrite __enter___run, Hlg. simpl.
  rewrite H1.
  destruct (new_client ch (trace st ++ [EvLedgerClient; EvSleep 1]))
    as [e2 | c]; simpl; repeat split.
Qed.

(** C7 (one retry on open), as the code runs.  On a backend as its
    constructor builds it, [__enter__] stops at its first line: reading
    [self.logger] raises [AttributeError], whatever the transport would
    do, so no [LedgerClient()] is attempted, nothing is slept, nothing is
    retried, and the backend is not opened. *)
Theorem open_raises_AttributeError
        (ch : Channel) (firmware : Firmware)
        (calls : list event) (records : list log_record) :
  let st := mkState (__init__ firmware) calls records in
  __enter__ ch st = (Raise (AttributeError "logger"), st) /\
  trace (snd (__enter__ flaky_channel (start (__init__ firmware)))) = [] /\
  _client (self (snd (__enter__ flaky_channel (start (__init__ firmware)))))
  = None.
Proof. repeat split. Qed.

(** Once a logger has been assigned to an open backend whose client
    closes without error, [handle_usb_reset] is [__exit__] followed at
    once by [__enter__]; and in every case the backend afterwards is the
    backend before with at most [_client] replaced. *)
Lemma reset_closes_then_opens
      (ch : Channel) (st : State) (lg : Logger) (c : LedgerClient) :
  logger (self st) = Some lg ->
  _client (self st) = Some c ->
  client_close ch (trace st) = None ->
  let st0 := informed lg "Re-starting LedgerWalletBackend stream" st in
  let closed := record EvClose st0 in
  __exit__ ch st0 = (Return tt, closed) /\
  handle_usb_reset ch st = __enter__ ch closed /\
  (exists rest,
      trace (snd (handle_usb_reset ch st))
      = trace st ++ EvClose :: EvLedgerClient :: rest) /\
  (forall st1,
      let b := self st1 in
      let b' := self (snd (handle_usb_reset ch st1)) in
      b' = set__client (_client b') b /\
      raise_policy b' = raise_policy b /\
      apdu_logger b' = apdu_logger b /\
      logger b' = logger b).
Proof.
  intros Hlg Hc Hclose st0 closed.
  assert (Hexit : __exit__ ch st0 = (Return tt, closed)).
  { unfold __exit__.
    erewrite bind_Return by (apply assert_client_Some; exact Hc).
    unfold LedgerClient_close. simpl. rewrite Hclose. reflexivity. }
  assert (Hrun : handle_usb_reset ch st = __enter__ ch closed).
  { rewrite handle_usb_reset_run, Hlg. fold st0. rewrite Hexit. reflexivity. }
  split; [exact Hexit|]. split; [exact Hrun|]. split.
  - rewrite Hrun, __enter___run. simpl. rewrite Hlg. simpl.
    destruct (new_client ch (trace st ++ [EvClose])) as [e1 | c1].
    + destruct (new_client ch ((trace st ++ [EvClose])
                               ++ [EvLedgerClient; EvSleep 1]))
        as [e2 | c2]; simpl; rewrite <- app_assoc; eexists; reflexivity.
    + simpl. rewrite <- app_assoc. eexists. reflexivity.
  - intros st1 b b'.
    pose proof (handle_usb_reset_self ch st1) as Hb. fold b b' in Hb.
    split; [exact Hb|]. rewrite Hb. repeat split.
Qed.

(** C9 (reset), as the code runs.  On a backend as its constructor builds
    it, whether or not a client has been put in [_client],
    [handle_usb_reset] stops at its first line: reading [self.logger]
    raises [AttributeError], so neither [close()] nor [LedgerClient()] is
    called and the state, configuration included, is as before. *)
Theorem reset_raises_AttributeError
        (ch : Channel) (firmware : Firmware) (client : option LedgerClient)
        (p : RaisePolicy) (calls : list event) (records : list log_record) :
  let st :=
    mkState (set_raise_policy p (set__client client (__init__ firmware)))
            calls records in
  handle_usb_reset ch st = (Raise (AttributeError "logger"), st).
Proof. reflexivity. Qed.

(** ** Oversized payloads *)

(** C8 (payload length).  Encoding a payload longer than 255 bytes fails
    with [FrameTooLarge], and so do [send] and [exchange], which leave the
    state (trace of transport calls and logs included) untouched; encoding
    a payload of at most 255 bytes, 255 included, succeeds with the four
    header bytes, the length and the payload. *)
Theorem payload_length_limit
        (ch : Channel) (st : State) (cla ins p1 p2 : Z) (big fits : bytes) :
  (255 < length big)%nat ->
  (length fits <= 255)%nat ->
  pack_APDU cla ins p1 p2 big = Raise FrameTooLarge /\
  send ch cla ins p1 p2 big st = (Raise FrameTooLarge, st) /\
  exchange ch cla ins p1 p2 big st = (Raise FrameTooLarge, st) /\
  pack_APDU cla ins p1 p2 fits
  = Return ([cla; ins; p1; p2; Z.of_nat (length fits)] ++ fits).
Proof.
  intros Hbig Hfits.
  pose proof (pack_APDU_too_large cla ins p1 p2 big Hbig) as Hp.
  repeat split.
  - exact Hp.
  - unfold send, lift, bind. rewrite Hp. reflexivity.
  - unfold exchange, lift, bind. rewrite Hp. reflexivity.
  - apply pack_APDU_ok. exact Hfits.
Qed.

Lemma payload_length_limit_witness :
  let st := start (open_backend RAISE_ALL_BUT_0x9000) in
  pack_APDU 0xE0 1 0 0 (repeat 0 256) = Raise FrameTooLarge /\
  send (echo_channel 0x9000) 0xE0 1 0 0 (repeat 0 256) st
  = (Raise FrameTooLarge, st) /\
  exchange (echo_channel 0x9000) 0xE0 1 0 0 (repeat 0 256) st
  = (Raise FrameTooLarge, st) /\
  pack_APDU 0xE0 1 0 0 (repeat 0 255)
  = Return ([0xE0; 1; 0; 0; Z.of_nat (length (repeat 0 255))] ++ repeat 0 255).
Proof.
  apply (payload_length_limit (echo_channel 0x9000)
           (start (open_backend RAISE_ALL_BUT_0x9000)) 0xE0 1 0 0
           (repeat 0 256) (repeat 0 255));
    rewrite repeat_length; lia.
Defined.

(** ** Screen and button operations *)

(** C10 (no visual surface).  On this backend the screen comparisons
    answer true for every argument, the screen content is the empty list,
    and the click and touch operations return; none of them changes the
    state, so none makes a call on the transport. *)
Theorem screen_operations_are_constant
        (st : State) (golden_snap_path : Path) (crop : option Crop)
        (tmp_snap_path : option Path) (golden_run : bool) (text : string)
        (x y : Z) (delay : float) :
  compare_screen_with_snapshot golden_snap_path crop tmp_snap_path golden_run st
  = (Return true, st) /\
  compare_screen_with_text text st = (Return true, st) /\
  get_current_screen_content st = (Return [], st) /\
  right_click st = (Return tt, st) /\
  left_click st = (Return tt, st) /\
  both_click st = (Return tt, st) /\
  finger_touch x y delay st = (Return tt, st).
Proof. repeat split. Qed.

(** * Further properties of the code *)

(** ** The decoder on well-formed bytes *)

Lemma Forall_skipn_bytes (P : Z -> Prop) n (l : bytes) :
  Forall P l -> Forall P (skipn n l).
Proof.
  intros H. rewrite <- (firstn_skipn n l) in H.
  apply Forall_app in H. apply H.
Qed.

Lemma last_two_length (raw : bytes) : (length (last_two raw) <= 2)%nat.
Proof. unfold last_two. rewrite length_skipn. lia. Qed.

Lemma last_two_length_full (raw : bytes) :
  (2 <= length raw)%nat -> length (last_two raw) = 2%nat.
Proof. intros H. unfold last_two. rewrite length_skipn. lia. Qed.

Lemma decode_rebuild (raw : bytes) :
  data (decode raw) ++ last_two raw = raw.
Proof.
  unfold decode. simpl. rewrite py_or_nil.
  unfold but_last_two, last_two. apply firstn_skipn.
Qed.

(** X1.  Whatever bytes the device answers, the decoded status word fits
    in 16 bits, and the decoded payload is the answer without its last two
    bytes (nothing when the answer has fewer than two). *)
Theorem decode_status_in_range (raw : bytes) :
  Forall is_byte raw ->
  0 <= status (decode raw) <= 0xFFFF /\
  length (data (decode raw)) = (length raw - 2)%nat.
Proof.
  intros Hb. split.
  - pose proof (last_two_length raw) as Hl.
    pose proof (Forall_skipn_bytes is_byte (length raw - 2) raw Hb) as Hf.
    fold (last_two raw) in Hf.
    unfold decode. simpl. unfold int_from_bytes_big.
    destruct (last_two raw) as [|h [|l [|x t]]]; simpl in *; try lia.
    + inversion Hf; subst. unfold is_byte in *. lia.
    + inversion Hf as [|? ? Hh Hf']; subst.
      inversion Hf' as [|? ? Hlo _]; subst.
      unfold is_byte in *. lia.
  - unfold decode. simpl. rewrite py_or_nil.
    unfold but_last_two. rewrite length_firstn. lia.
Qed.

Lemma decode_status_in_range_witness :
  0 <= status (decode [1; 2; 0x6A; 0x80]) <= 0xFFFF /\
  length (data (decode [1; 2; 0x6A; 0x80])) = (length [1; 2; 0x6A; 0x80] - 2)%nat.
Proof.
  apply (decode_status_in_range [1; 2; 0x6A; 0x80]).
  repeat constructor; unfold is_byte; lia.
Defined.

Lemma decode_same_bytes (raw1 raw2 : bytes) :
  Forall is_byte raw1 -> Forall is_byte raw2 ->
  (2 <= length raw1)%nat -> (2 <= length raw2)%nat ->
  decode raw1 = decode raw2 ->
  raw1 = raw2.
Proof.
  intros Hb1 Hb2 Hl1 Hl2 Heq.
  rewrite <- (decode_rebuild raw1), <- (decode_rebuild raw2).
  rewrite Heq. f_equal.
  assert (Hs : status (decode raw1) = status (decode raw2))
    by (rewrite Heq; reflexivity).
  unfold decode in Hs. simpl in Hs. unfold int_from_bytes_big in Hs.
  pose proof (last_two_length_full raw1 Hl1) as L1.
  pose proof (last_two_length_full raw2 Hl2) as L2.
  pose proof (Forall_skipn_bytes is_byte (length raw1 - 2) raw1 Hb1) as F1.
  pose proof (Forall_skipn_bytes is_byte (length raw2 - 2) raw2 Hb2) as F2.
  fold (last_two raw1) in F1. fold (last_two raw2) in F2.
  destruct (last_two raw1) as [|h1 [|l1 [|x1 t1]]]; simpl in L1; try lia.
  destruct (last_two raw2) as [|h2 [|l2 [|x2 t2]]]; simpl in L2; try lia.
  simpl in Hs.
  inversion F1 as [|? ? A1 F1']; subst. inversion F1' as [|? ? B1 _]; subst.
  inversion F2 as [|? ? A2 F2']; subst. inversion F2' as [|? ? B2 _]; subst.
  unfold is_byte in *.
  assert (h1 = h2) by lia. assert (l1 = l2) by lia. subst. reflexivity.
Qed.

(** X2.  Decoding loses nothing of a complete answer: two different
    answers of well-formed bytes, each at least two bytes long, decode to
    different responses. *)
Theorem decode_injective (raw1 raw2 : bytes) :
  Forall is_byte raw1 -> Forall is_byte raw2 ->
  (2 <= length raw1)%nat -> (2 <= length raw2)%nat ->
  raw1 <> raw2 ->
  decode raw1 <> decode raw2.
Proof.
  intros Hb1 Hb2 Hl1 Hl2 Hne Heq. apply Hne.
  apply decode_same_bytes; assumption.
Qed.

Lemma decode_injective_witness :
  decode [7; 0x90; 0x00] <> decode [0x90; 0x00].
Proof.
  apply (decode_injective [7; 0x90; 0x00] [0x90; 0x00]);
    try (repeat constructor; unfold is_byte; lia);
    try (simpl; lia); discriminate.
Defined.

(** ** Calls on a backend that was never opened *)

(** X3.  On a backend whose [_client] is [None], [send_raw],
    [exchange_raw], [receive] and [__exit__] all raise [AssertionError]
    and make no call on the transport; [send_raw] and [exchange_raw] have
    by then logged the outgoing bytes, [receive] and [__exit__] leave the
    state as it was. *)
Theorem unopened_backend_asserts (ch : Channel) (st : State) (apdu : bytes) :
  _client (self st) = None ->
  send_raw ch apdu st = (Raise AssertionError, logged_out apdu st) /\
  exchange_raw ch apdu st = (Raise AssertionError, logged_out apdu st) /\
  trace (logged_out apdu st) = trace st /\
  receive ch st = (Raise AssertionError, st) /\
  __exit__ ch st = (Raise AssertionError, st).
Proof.
  intros Hn.
  assert (Hout : assert_client (logged_out apdu st)
                 = (Raise AssertionError, logged_out apdu st))
    by (apply assert_client_None; exact Hn).
  repeat split.
  - unfold send_raw.
    unfold apdu_logger_debug at 1, bind at 1 2, get_self at 1, emit. simpl.
    fold (logged_out apdu st).
    apply bind_Raise. exact Hout.
  - unfold exchange_raw. apply enforcer_Raise; [|discriminate].
    unfold exchange_raw_undecorated.
    unfold apdu_logger_debug at 1, bind at 1 2, get_self at 1, emit. simpl.
    fold (logged_out apdu st).
    apply bind_Raise. exact Hout.
  - unfold receive. apply enforcer_Raise; [|discriminate].
    unfold receive_undecorated. apply bind_Raise.
    apply assert_client_None. exact Hn.
  - unfold __exit__. apply bind_Raise. apply assert_client_None. exact Hn.
Qed.

Lemma unopened_backend_asserts_witness :
  let st := start fresh_backend in
  send_raw (echo_channel 0x9000) [0xE0; 1; 0; 0; 0] st
  = (Raise AssertionError, logged_out [0xE0; 1; 0; 0; 0] st) /\
  exchange_raw (echo_channel 0x9000) [0xE0; 1; 0; 0; 0] st
  = (Raise AssertionError, logged_out [0xE0; 1; 0; 0; 0] st) /\
  trace (logged_out [0xE0; 1; 0; 0; 0] st) = trace st /\
  receive (echo_channel 0x9000) st = (Raise AssertionError, st) /\
  __exit__ (echo_channel 0x9000) st = (Raise AssertionError, st).
Proof.
  exact (unopened_backend_asserts (echo_channel 0x9000) (start fresh_backend)
           [0xE0; 1; 0; 0; 0] eq_refl).
Defined.

(** X4.  When the send of an asynchronous exchange fails, the exchange
    ends with the send's exception in the state the send left: the
    caller's block is not run, whatever it is, and no receive is made. *)
Theorem async_block_skipped_when_send_fails
        (ch : Channel) (apdu : bytes) (body : M unit)
        (st st1 : State) (e : exn) :
  send_raw ch apdu st = (Raise e, st1) ->
  exchange_async_raw ch apdu body st = (Raise e, st1).
Proof.
  intros H. unfold exchange_async_raw. apply bind_Raise. exact H.
Qed.

Lemma async_block_skipped_when_send_fails_witness :
  exchange_async_raw (echo_channel 0x9000) [0xE0; 1; 0; 0; 0]
                     (assign_raise_policy RAISE_NOTHING) (start fresh_backend)
  = (Raise AssertionError,
     logged_out [0xE0; 1; 0; 0; 0] (start fresh_backend)).
Proof.
  exact (async_block_skipped_when_send_fails (echo_channel 0x9000)
           [0xE0; 1; 0; 0; 0] (assign_raise_policy RAISE_NOTHING)
           (start fresh_backend) _ AssertionError eq_refl).
Defined.

(** ** What the decorator lets through, and what it logs *)

Lemma is_CommException_false e :
  is_CommException e = false -> forall sw d, e <> CommException sw d.
Proof. intros H sw d E. subst e. discriminate H. Qed.

(** X5.  A transport failure that is not a [CommException] goes through
    [receive] and [exchange_raw] as it is, under every raise policy
    ([RAISE_NOTHING] included), and no "<=" record is logged for it. *)
Theorem transport_error_propagates
        (ch : Channel) (st : State) (c : LedgerClient) (e : exn) (apdu : bytes) :
  _client (self st) = Some c ->
  is_CommException e = false ->
  device_read ch (trace st) = inl e ->
  raw_exchange ch (trace st) apdu = inl e ->
  receive ch st = (Raise e, record (EvRead (read_timeout c)) st) /\
  exchange_raw ch apdu st
  = (Raise e, record (EvRawExchange apdu) (logged_out apdu st)).
Proof.
  intros Hc He Hr Hx. split.
  - unfold receive. apply enforcer_Raise.
    + apply (receive_undecorated_fault ch st c e Hc Hr).
    + apply is_CommException_false. exact He.
  - unfold exchange_raw. apply enforcer_Raise.
    + apply (exchange_raw_undecorated_fault ch st c apdu e Hc Hx).
    + apply is_CommException_false. exact He.
Qed.

Lemma transport_error_propagates_witness :
  let st := start (open_backend RAISE_NOTHING) in
  receive (fixed_channel (inl (TransportError 5))) st
  = (Raise (TransportError 5), record (EvRead (read_timeout hid_client)) st) /\
  exchange_raw (fixed_channel (inl (TransportError 5))) [0xE0; 1; 0; 0; 0] st
  = (Raise (TransportError 5),
     record (EvRawExchange [0xE0; 1; 0; 0; 0])
            (logged_out [0xE0; 1; 0; 0; 0] st)).
Proof.
  exact (transport_error_propagates (fixed_channel (inl (TransportError 5)))
           (start (open_backend RAISE_NOTHING)) hid_client (TransportError 5)
           [0xE0; 1; 0; 0; 0] eq_refl eq_refl eq_refl eq_refl).
Defined.

(** X6.  A device answer is logged before the raise policy is applied:
    after [exchange_raw] the log holds the "=>" record of the command and
    then the "<=" record of the decoded response, after [receive] the "<="
    record, whether the call returns or raises; the transport has seen
    exactly one call, and no attribute of the backend has changed. *)
Theorem response_logged_before_policy
        (ch : Channel) (st : State) (c : LedgerClient) (apdu raw : bytes) :
  _client (self st) = Some c ->
  raw_exchange ch (trace st) apdu = inr raw ->
  device_read ch (trace st) = inr raw ->
  let rapdu := decode raw in
  let incoming :=
    mkLogRecord (apdu_logger (self st))
                (MsgApduIn (data rapdu) (status rapdu)) in
  let outgoing := mkLogRecord (apdu_logger (self st)) (MsgApduOut apdu) in
  log (snd (exchange_raw ch apdu st)) = log st ++ [outgoing; incoming] /\
  trace (snd (exchange_raw ch apdu st)) = trace st ++ [EvRawExchange apdu] /\
  self (snd (exchange_raw ch apdu st)) = self st /\
  log (snd (receive ch st)) = log st ++ [incoming] /\
  trace (snd (receive ch st)) = trace st ++ [EvRead (read_timeout c)] /\
  self (snd (receive ch st)) = self st.
Proof.
  intros Hc Hx Hr rapdu incoming outgoing.
  rewrite (exchange_raw_ok ch st c apdu raw Hc Hx).
  rewrite (receive_ok ch st c raw Hc Hr).
  simpl. rewrite <- app_assoc. repeat split.
Qed.

Lemma response_logged_before_policy_witness :
  let ch := fixed_channel (inr [0x6F; 0x00]) in
  let st := start (open_backend RAISE_ALL) in
  let incoming := mkLogRecord (mkLogger "apdu_logger") (MsgApduIn [] 0x6F00) in
  let outgoing :=
    mkLogRecord (mkLogger "apdu_logger") (MsgApduOut [0xE0; 1; 0; 0; 0]) in
  log (snd (exchange_raw ch [0xE0; 1; 0; 0; 0] st)) = [outgoing; incoming] /\
  trace (snd (exchange_raw ch [0xE0; 1; 0; 0; 0] st))
  = [EvRawExchange [0xE0; 1; 0; 0; 0]] /\
  self (snd (exchange_raw ch [0xE0; 1; 0; 0; 0] st)) = self st /\
  log (snd (receive ch st)) = [incoming] /\
  trace (snd (receive ch st)) = [EvRead (Some 1000)] /\
  self (snd (receive ch st)) = self st.
Proof.
  exact (response_logged_before_policy (fixed_channel (inr [0x6F; 0x00]))
           (start (open_backend RAISE_ALL)) hid_client [0xE0; 1; 0; 0; 0]
           [0x6F; 0x00] eq_refl eq_refl eq_refl).
Defined.

(** ** What the raise policy guarantees about a call's outcome *)

(** A response the decorator returns was accepted by the policy in force
    when the wrapped call ended. *)
Lemma enforcer_Return_inv (function : M RAPDU) st r st' :
  raise_policy_enforcer function st = (Return r, st') ->
  is_raise_required (self (snd (function st))) r = false.
Proof.
  destruct (function st) as [[r0 | e] st1] eqn:H; simpl.
  - rewrite (enforcer_Return _ _ _ _ H). unfold enforce.
    destruct (is_raise_required (self st1) r0) eqn:Hreq; intros E;
      inversion E; subst; exact Hreq.
  - destruct e as [s p | sw d | | | n | a].
    2:{ rewrite (enforcer_CommException _ _ _ _ _ H). unfold enforce.
        destruct (is_raise_required (self st1) (mkRAPDU sw d)) eqn:Hreq;
          intros E; inversion E; subst; exact Hreq. }
    all: rewrite (enforcer_Raise _ _ _ _ H) by discriminate; discriminate.
Qed.

Lemma receive_undecorated_self ch st :
  self (snd (receive_undecorated ch st)) = self st.
Proof.
  unfold receive_undecorated, assert_client, bind, get_self, ret, raise,
    Device_read.
  destruct (_client (self st)) as [c|]; [|reflexivity].
  destruct (device_is_hid c), (device_read ch (trace st)); reflexivity.
Qed.

Lemma exchange_raw_undecorated_self ch apdu st :
  self (snd (exchange_raw_undecorated ch apdu st)) = self st.
Proof.
  unfold exchange_raw_undecorated, apdu_logger_debug, assert_client, bind,
    get_self, emit, ret, raise, LedgerClient_raw_exchange. simpl.
  destruct (_client (self st)) as [c|]; [|reflexivity].
  simpl. destruct (raw_exchange ch (trace st) apdu); reflexivity.
Qed.

Lemma accepted_by_default_policy b r :
  raise_policy b = RAISE_ALL_BUT_0x9000 ->
  is_raise_required b r = false ->
  status r = 0x9000.
Proof.
  unfold is_raise_required. intros Hp. rewrite Hp. simpl.
  destruct (Z.eqb_spec (status r) 0x9000); [trivial | discriminate].
Qed.

(** X7.  Under the default policy [RAISE_ALL_BUT_0x9000], whatever the
    transport does, a response that [receive], [exchange_raw] or
    [exchange] returns has status word 0x9000. *)
Theorem default_policy_returns_only_success
        (ch : Channel) (st : State) (cla ins p1 p2 : Z) (apdu : bytes) :
  raise_policy (self st) = RAISE_ALL_BUT_0x9000 ->
  (forall r st', receive ch st = (Return r, st') -> status r = 0x9000) /\
  (forall r st',
      exchange_raw ch apdu st = (Return r, st') -> status r = 0x9000) /\
  (forall r st',
      exchange ch cla ins p1 p2 apdu st = (Return r, st') ->
      status r = 0x9000).
Proof.
  intros Hp.
  assert (Hraw : forall a r st',
             exchange_raw ch a st = (Return r, st') -> status r = 0x9000).
  { intros a r st' H. apply enforcer_Return_inv in H.
    rewrite exchange_raw_undecorated_self in H.
    exact (accepted_by_default_policy _ _ Hp H). }
  repeat split.
  - intros r st' H. apply enforcer_Return_inv in H.
    rewrite receive_undecorated_self in H.
    exact (accepted_by_default_policy _ _ Hp H).
  - apply Hraw.
  - intros r st'. unfold exchange, lift, bind.
    destruct (pack_APDU cla ins p1 p2 apdu) as [a | e]; [|discriminate].
    apply Hraw.
Qed.

Lemma default_policy_returns_only_success_witness :
  let ch := echo_channel 0x9000 in
  let st := start (open_backend RAISE_ALL_BUT_0x9000) in
  (forall r st', receive ch st = (Return r, st') -> status r = 0x9000) /\
  (forall r st',
      exchange_raw ch [0xE0; 1; 0; 0; 0] st = (Return r, st') ->
      status r = 0x9000) /\
  (forall r st',
      exchange ch 0xE0 1 0 0 [0xE0; 1; 0; 0; 0] st = (Return r, st') ->
      status r = 0x9000).
Proof.
  exact (default_policy_returns_only_success (echo_channel 0x9000)
           (start (open_backend RAISE_ALL_BUT_0x9000)) 0xE0 1 0 0
           [0xE0; 1; 0; 0; 0] eq_refl).
Defined.

(** X8.  Under [RAISE_ALL] neither [receive] nor [exchange_raw] ever
    returns a response: whatever the transport does, the call ends with an
    exception. *)
Theorem raise_all_never_returns (ch : Channel) (st : State) (apdu : bytes) :
  raise_policy (self st) = RAISE_ALL ->
  (forall r, fst (receive ch st) <> Return r) /\
  (forall r, fst (exchange_raw ch apdu st) <> Return r).
Proof.
  intros Hp.
  assert (Hall : forall b r, raise_policy b = RAISE_ALL ->
                             is_raise_required b r = true).
  { intros b r H. unfold is_raise_required. rewrite H. reflexivity. }
  split; intros r Hret.
  - destruct (receive ch st) as [o st'] eqn:H. simpl in Hret. subst o.
    apply enforcer_Return_inv in H.
    rewrite receive_undecorated_self, (Hall _ _ Hp) in H. discriminate.
  - destruct (exchange_raw ch apdu st) as [o st'] eqn:H. simpl in Hret. subst o.
    apply enforcer_Return_inv in H.
    rewrite exchange_raw_undecorated_self, (Hall _ _ Hp) in H. discriminate.
Qed.

Lemma raise_all_never_returns_witness :
  (forall r, fst (receive (echo_channel 0x9000) (start (open_backend RAISE_ALL)))
             <> Return r) /\
  (forall r, fst (exchange_raw (echo_channel 0x9000) [0xE0; 1; 0; 0; 0]
                               (start (open_backend RAISE_ALL)))
             <> Return r).
Proof.
  exact (raise_all_never_returns (echo_channel 0x9000)
           (start (open_backend RAISE_ALL)) [0xE0; 1; 0; 0; 0] eq_refl).
Defined.

(** ** More on opening, closing and resetting *)

(** X9.  When the first [LedgerClient()] would succeed: on a backend
    that has a [logger], [__enter__] neither sleeps nor retries, the
    transport sees the one acquisition and the backend holds the new
    client (one it already held is replaced without being closed); on a
    backend without [logger], as the constructor leaves it, [__enter__]
    raises [AttributeError] and the transport sees nothing. *)
Theorem open_first_try (ch : Channel) (st : State) (c : LedgerClient) :
  new_client ch (trace st) = inr c ->
  match logger (self st) with
  | Some _ =>
      fst (__enter__ ch st) = Return tt /\
      trace (snd (__enter__ ch st)) = trace st ++ [EvLedgerClient] /\
      _client (self (snd (__enter__ ch st))) = Some c
  | None => __enter__ ch st = (Raise (AttributeError "logger"), st)
  end.
Proof.
  intros H. rewrite __enter___run.
  destruct (logger (self st)) as [lg|]; [|reflexivity].
  simpl. rewrite H. repeat split.
Qed.

Lemma open_first_try_witness :
  (fst (__enter__ (echo_channel 0x9000) (start fresh_backend_with_logger))
   = Return tt /\
   trace (snd (__enter__ (echo_channel 0x9000)
                         (start fresh_backend_with_logger)))
   = [EvLedgerClient] /\
   _client (self (snd (__enter__ (echo_channel 0x9000)
                                 (start fresh_backend_with_logger))))
   = Some hid_client) /\
  __enter__ (echo_channel 0x9000) (start fresh_backend)
  = (Raise (AttributeError "logger"), start fresh_backend).
Proof.
  split.
  - exact (open_first_try (echo_channel 0x9000)
             (start fresh_backend_with_logger) hid_client eq_refl).
  - exact (open_first_try (echo_channel 0x9000) (start fresh_backend)
             hid_client eq_refl).
Defined.

(** X10.  [__exit__] closes the client but keeps it in [_client]: a
    [send_raw] made after the [with] block has been left passes the
    assertion and writes to the closed client's device. *)
Theorem close_keeps_client
        (ch : Channel) (st : State) (c : LedgerClient) (apdu : bytes) :
  _client (self st) = Some c ->
  client_close ch (trace st) = None ->
  device_write ch (trace st ++ [EvClose]) apdu = None ->
  let run := (__exit__ ch ;; send_raw ch apdu) st in
  fst run = Return tt /\
  trace (snd run) = trace st ++ [EvClose; EvWrite apdu] /\
  _client (self (snd run)) = Some c.
Proof.
  intros Hc Hclose Hw run. unfold run.
  assert (Hexit : __exit__ ch st = (Return tt, record EvClose st)).
  { unfold __exit__.
    erewrite bind_Return by (apply assert_client_Some; exact Hc).
    unfold LedgerClient_close. rewrite Hclose. reflexivity. }
  rewrite (bind_Return _ _ _ _ _ Hexit).
  rewrite (send_raw_ok ch (record EvClose st) c apdu Hc Hw).
  simpl. rewrite <- app_assoc. repeat split. exact Hc.
Qed.

Lemma close_keeps_client_witness :
  let st := start (open_backend RAISE_NOTHING) in
  let run := (__exit__ (echo_channel 0x9000) ;;
              send_raw (echo_channel 0x9000) [0xE0; 1; 0; 0; 0]) st in
  fst run = Return tt /\
  trace (snd run) = trace st ++ [EvClose; EvWrite [0xE0; 1; 0; 0; 0]] /\
  _client (self (snd run)) = Some hid_client.
Proof.
  exact (close_keeps_client (echo_channel 0x9000)
           (start (open_backend RAISE_NOTHING)) hid_client [0xE0; 1; 0; 0; 0]
           eq_refl eq_refl eq_refl).
Defined.

(** X11.  [handle_usb_reset] does not reopen when closing fails.  On a
    backend that has a [logger]: if [client.close()] raises, that
    exception ends the reset after the one close call, and if [_client] is
    [None] the reset ends with [AssertionError] before any call.  On a
    backend without [logger] the reset ends with [AttributeError] before
    anything else.  In all three cases no [LedgerClient()] is attempted
    and [_client] is as before. *)
Theorem reset_stops_when_close_fails (ch : Channel) (st : State) (e : exn) :
  client_close ch (trace st) = Some e ->
  handle_usb_reset ch st
  = match logger (self st) with
    | None => (Raise (AttributeError "logger"), st)
    | Some lg =>
        let st0 := informed lg "Re-starting LedgerWalletBackend stream" st in
        match _client (self st) with
        | Some _ => (Raise e, record EvClose st0)
        | None => (Raise AssertionError, st0)
        end
    end.
Proof.
  intros Hclose. rewrite handle_usb_reset_run.
  destruct (logger (self st)) as [lg|]; [|reflexivity].
  unfold __exit__, assert_client, bind, get_self, ret, raise,
    LedgerClient_close, informed. simpl.
  destruct (_client (self st)); [|reflexivity].
  simpl. rewrite Hclose. reflexivity.
Qed.

Lemma reset_stops_when_close_fails_witness :
  let st := start (open_backend_with_logger RAISE_NOTHING) in
  handle_usb_reset stuck_channel st
  = (Raise (TransportError 32),
     record EvClose
            (informed ragger_logger
                      "Re-starting LedgerWalletBackend stream" st)).
Proof.
  exact (reset_stops_when_close_fails stuck_channel
           (start (open_backend_with_logger RAISE_NOTHING))
           (TransportError 32) eq_refl).
Defined.

(** ** The policy in force when an asynchronous exchange completes *)

(** X12.  The raise policy is read when the response is received, not
    when the command is sent: if the caller's block of an asynchronous
    exchange assigns the policy [p], the response received at the exit of
    the block is raised or stored as [p] says, whatever the policy was
    when the exchange began. *)
Theorem async_policy_read_at_exit
        (ch : Channel) (st : State) (c : LedgerClient)
        (apdu raw : bytes) (p : RaisePolicy) :
  _client (self st) = Some c ->
  device_write ch (trace st) apdu = None ->
  device_read ch (trace st ++ [EvWrite apdu]) = inr raw ->
  let rapdu := decode raw in
  let run := exchange_async_raw ch apdu (assign_raise_policy p) st in
  raise_policy (self (snd run)) = p /\
  if is_raise_required (set_raise_policy p (self st)) rapdu
  then fst run = Raise (ExceptionRAPDU (status rapdu) (data rapdu)) /\
       _last_async_response (self (snd run))
       = _last_async_response (self st)
  else fst run = Return tt /\
       _last_async_response (self (snd run)) = Some rapdu.
Proof.
  intros Hc Hw Hr rapdu run. unfold run.
  rewrite (exchange_async_raw_run ch apdu _ st _ (send_raw_ok ch st c apdu Hc Hw)).
  unfold assign_raise_policy, bind at 1, get_self, put_self. simpl.
  match goal with
  | |- context [receive ch ?s] =>
      rewrite (receive_ok ch s c raw Hc Hr)
  end.
  unfold enforce. simpl. fold rapdu.
  destruct (is_raise_required (set_raise_policy p (self st)) rapdu);
    simpl; repeat split.
Qed.

Lemma async_policy_read_at_exit_witness :
  let run :=
    exchange_async_raw (fixed_channel (inr [0x6F; 0x00])) [0xE0; 1; 0; 0; 0]
                       (assign_raise_policy RAISE_NOTHING)
                       (start (open_backend RAISE_ALL)) in
  raise_policy (self (snd run)) = RAISE_NOTHING /\
  fst run = Return tt /\
  _last_async_response (self (snd run)) = Some (mkRAPDU 0x6F00 []).
Proof.
  exact (async_policy_read_at_exit (fixed_channel (inr [0x6F; 0x00]))
           (start (open_backend RAISE_ALL)) hid_client [0xE0; 1; 0; 0; 0]
           [0x6F; 0x00] RAISE_NOTHING eq_refl eq_refl eq_refl).
Defined.

(** ** Handlers of the shared APDU logger *)

Lemma _cleanup_closed_times n hs :
  Forall (closed_times n) hs -> Forall (closed_times (S n)) (_cleanup hs).
Proof.
  induction 1 as [|h hs Hh _ IH]; simpl; constructor; [|exact IH].
  destruct h; simpl in *; [trivial | congruence].
Qed.

Lemma iter_cleanup_closed_times k hs :
  Forall (closed_times 0) hs ->
  Forall (closed_times k) (Nat.iter k _cleanup hs).
Proof.
  intros H. induction k as [|k IH]; simpl; [exact H|].
  apply _cleanup_closed_times. exact IH.
Qed.

Lemma iter_cleanup_length k hs :
  length (Nat.iter k _cleanup hs) = length hs.
Proof.
  induction k as [|k IH]; simpl; [reflexivity|].
  unfold _cleanup at 1. rewrite length_map. exact IH.
Qed.

Lemma construct_all_app files file p :
  construct_all (files ++ [file]) p
  = __init___handlers file (construct_all files p).
Proof. unfold construct_all. rewrite fold_left_app. reflexivity. Qed.

Lemma with_file_app files file :
  with_file (files ++ [file])
  = (with_file files + match file with Some _ => 1 | None => 0 end)%nat.
Proof.
  unfold with_file. rewrite filter_app, length_app.
  destruct file; reflexivity.
Qed.

(** What a run of constructions leaves in a fresh process. *)
Lemma construct_all_state files :
  let p := construct_all files fresh_process in
  length (filter is_StreamHandler (handlers p)) = length files /\
  length (filter is_FileHandler (handlers p)) = with_file files /\
  registered p = with_file files /\
  Forall (closed_times 0) (handlers p).
Proof.
  induction files as [|file files IH] using rev_ind.
  - simpl. repeat split. constructor.
  - rewrite construct_all_app, with_file_app, length_app. simpl length.
    simpl in IH. destruct IH as (Hs & Hf & Hr & Hc).
    set (q := construct_all files fresh_process) in *.
    destruct file as [filename|]; unfold __init___handlers; simpl.
    + rewrite !filter_app, !length_app. simpl.
      rewrite Hs, Hf, Hr. repeat split; try lia.
      apply Forall_app. split; [apply Forall_app; split|].
      * exact Hc.
      * repeat constructor.
      * repeat constructor.
    + rewrite !filter_app, !length_app. simpl.
      rewrite Hs, Hf, Hr. repeat split; try lia.
      apply Forall_app. split; [exact Hc | repeat constructor].
Qed.

(** X13.  The APDU logger is shared by all backends of a process, so its
    handlers pile up: after any sequence of backend constructions the
    logger has one [StreamHandler] per backend constructed and one
    [FileHandler] per backend constructed with a log file.  Every such
    backend registers its own [_cleanup], and each [_cleanup] closes every
    [FileHandler] of the logger: once the registered callbacks have run,
    each [FileHandler] has received from them one [close()] per backend
    constructed with a log file, and they have added or removed no
    handler. *)
Theorem handlers_accumulate (files : list (option Path)) :
  let p := construct_all files fresh_process in
  length (filter is_StreamHandler (handlers p)) = length files /\
  length (filter is_FileHandler (handlers p)) = with_file files /\
  registered p = with_file files /\
  length (run_cleanups p) = length (handlers p) /\
  Forall (closed_times (with_file files)) (run_cleanups p).
Proof.
  intros p. destruct (construct_all_state files) as (Hs & Hf & Hr & Hc).
  fold p in Hs, Hf, Hr, Hc.
  repeat split; try assumption.
  - unfold run_cleanups. apply iter_cleanup_length.
  - unfold run_cleanups. rewrite Hr. apply iter_cleanup_closed_times. exact Hc.
Qed.

(** ** How many calls an operation makes on the transport *)

(** The decorator makes no call on the transport of its own. *)
Lemma enforcer_trace (function : M RAPDU) st :
  trace (snd (raise_policy_enforcer function st)) = trace (snd (function st)).
Proof.
  destruct (function st) as [[r | e] st1] eqn:H.
  - rewrite (enforcer_Return _ _ _ _ H). reflexivity.
  - destruct e as [s p | sw d | | | n | a].
    2:{ rewrite (enforcer_CommException _ _ _ _ _ H). reflexivity. }
    all: rewrite (enforcer_Raise _ _ _ _ H) by discriminate; reflexivity.
Qed.

(** X14.  Whether they succeed or fail, and whatever the transport
    answers, [send_raw] makes exactly one [device.write] call,
    [exchange_raw] exactly one [raw_exchange] call (and neither a write
    nor a read), and [receive] exactly one [device.read] call (with 1000
    on a [HidDevice], without argument otherwise) when the backend holds a
    client, and none of them any call when it holds none; [__enter__]
    makes no call on a backend without [logger], and otherwise either one
    [LedgerClient()] call, or two with one [sleep(1)] between them, and no
    other. *)
Theorem transport_calls_per_operation (ch : Channel) (st : State) (apdu : bytes) :
  trace (snd (send_raw ch apdu st))
  = match _client (self st) with
    | Some _ => trace st ++ [EvWrite apdu]
    | None => trace st
    end /\
  trace (snd (exchange_raw ch apdu st))
  = match _client (self st) with
    | Some _ => trace st ++ [EvRawExchange apdu]
    | None => trace st
    end /\
  trace (snd (receive ch st))
  = match _client (self st) with
    | Some c => trace st ++ [EvRead (read_timeout c)]
    | None => trace st
    end /\
  trace (snd (__enter__ ch st))
  = match logger (self st) with
    | None => trace st
    | Some _ =>
        match new_client ch (trace st) with
        | inr _ => trace st ++ [EvLedgerClient]
        | inl _ => trace st ++ [EvLedgerClient; EvSleep 1; EvLedgerClient]
        end
    end.
Proof.
  repeat split.
  - unfold send_raw, apdu_logger_debug, assert_client, bind, get_self, emit,
      ret, raise, Device_write. simpl.
    destruct (_client (self st)); [|reflexivity]. simpl.
    destruct (device_write ch (trace st) apdu); reflexivity.
  - unfold exchange_raw. rewrite enforcer_trace.
    unfold exchange_raw_undecorated, apdu_logger_debug, assert_client, bind,
      get_self, emit, ret, raise, LedgerClient_raw_exchange. simpl.
    destruct (_client (self st)); [|reflexivity]. simpl.
    destruct (raw_exchange ch (trace st) apdu); reflexivity.
  - unfold receive. rewrite enforcer_trace.
    unfold receive_undecorated, assert_client, bind, get_self, ret, raise,
      Device_read, read_timeout.
    destruct (_client (self st)) as [c|]; [|reflexivity].
    destruct (device_is_hid c), (device_read ch (trace st)); reflexivity.
  - rewrite __enter___run.
    destruct (logger (self st)); [|reflexivity]. simpl.
    destruct (new_client ch (trace st)); [|reflexivity].
    destruct (new_client ch (trace st ++ [EvLedgerClient; EvSleep 1]));
      reflexivity.
Qed.
